(** * Backfill command rendering and validation (dags/utils/backfill.py)

    A shallow embedding of the two parameter classes of
    [dags/utils/backfill.py], [AirflowBackfillParams] and
    [BigQueryETLBackfillParams], with their validation methods and their
    [generate_backfill_command] renderers, and the properties of the
    specification proved about them.

    Python methods are embedded in a small state-and-exception monad whose
    state is the object [self]: a method may read its fields, could assign to
    them, and may raise.  The two library entry points the module calls,
    [datetime.datetime.fromisoformat] and [re.compile], are not code of this
    repository: the ISO-8601 grammar and the regular-expression compiler are
    parameters of the development; what the module does with their results
    (the argument check, the comparison of the parsed date-times, the
    [try]/[except] around the compiler) is written out. *)

From Stdlib Require Import ZArith String Ascii List Bool DecimalString Lia.
Import ListNotations.

Local Open Scope string_scope.
Local Open Scope list_scope.
Local Open Scope Z_scope.
Local Set Warnings "-register-all".

(** ** Python values: exceptions, truthiness, [str()] *)

(** The exceptions a method of this module can end with.  [ValueError] is the
    one the module raises itself; its second component is its [__context__],
    the exception that was being handled when it was raised ([None] outside
    a handler).  [ValueErrorFromNone] is the same exception raised with
    [from None]: no cause, and the context, still attached, is not shown
    ([__suppress_context__]).  The others come from the library calls: the
    [ValueError] of [fromisoformat] on a string it rejects, the [ValueError]
    of printing an [int] of too many digits, the [TypeError] of a library
    call on an argument it cannot take, [re.error], and whatever else the
    regular-expression compiler may raise. *)
Inductive library_call : Type :=
| Fromisoformat
| DatetimeOrder
| ReCompile
| StrJoin.

Inductive exn : Type :=
| ValueError (msg : string) (chained : option exn)
| ValueErrorFromNone (msg : string) (context : option exn)
| IsoformatValueError (date_string : string)
| IntToStrValueError
| TypeError (raised_by : library_call)
| ReError (msg : string)
| LibraryError (cls msg : string).

Inductive exn_class : Type :=
| ValueErrorClass
| TypeErrorClass
| ReErrorClass
| OtherClass (name : string).

(** The Python class of an exception; [re.error] derives from [Exception]
    only. *)
Definition class_of (e : exn) : exn_class :=
  match e with
  | ValueError _ _ => ValueErrorClass
  | ValueErrorFromNone _ _ => ValueErrorClass
  | IsoformatValueError _ => ValueErrorClass
  | IntToStrValueError => ValueErrorClass
  | TypeError _ => TypeErrorClass
  | ReError _ => ReErrorClass
  | LibraryError cls _ => OtherClass cls
  end.

(** [e.__context__], for the exceptions of this module. *)
Definition chained_of (e : exn) : option exn :=
  match e with
  | ValueError _ c => c
  | ValueErrorFromNone _ c => c
  | _ => None
  end.

(** [e.__suppress_context__] *)
Definition suppress_context_of (e : exn) : bool :=
  match e with
  | ValueErrorFromNone _ _ => true
  | _ => false
  end.

(** [raise e from None] marks [e]: its cause is [None] and its context is
    not to be shown. *)
Definition from_None (e : exn) : exn :=
  match e with
  | ValueError msg c => ValueErrorFromNone msg c
  | _ => e
  end.

(** Raising [e] while [handled] is being handled attaches [handled] to it as
    its context. *)
Definition with_context (handled : exn) (e : exn) : exn :=
  match e with
  | ValueError msg _ => ValueError msg (Some handled)
  | ValueErrorFromNone msg _ => ValueErrorFromNone msg (Some handled)
  | _ => e
  end.

Inductive result (A : Type) : Type :=
| Ok (a : A)
| Raise (e : exn).
Arguments Ok {A} a.
Arguments Raise {A} e.

(** Truth value testing ([if x:]): [None], the empty string, the empty list,
    zero and [False] are false. *)
Class Truthy (A : Type) : Type := truthy : A -> bool.

#[export] Instance truthy_bool : Truthy bool := fun b => b.
#[export] Instance truthy_str : Truthy string :=
  fun s => match s with EmptyString => false | String _ _ => true end.
#[export] Instance truthy_int : Truthy Z := fun n => negb (n =? 0).
#[export] Instance truthy_list {A : Type} : Truthy (list A) :=
  fun l => match l with [] => false | _ :: _ => true end.
#[export] Instance truthy_optional {A : Type} `{Truthy A} : Truthy (option A) :=
  fun o => match o with None => false | Some a => truthy a end.

(** [str(x)] and the [{x}] of an f-string. *)
Class Str (A : Type) : Type := str : A -> string.

#[export] Instance str_str : Str string := fun s => s.
#[export] Instance str_optional {A : Type} `{Str A} : Str (option A) :=
  fun o => match o with None => "None" | Some a => str a end.

(** The decimal numeral of an integer, with a minus sign when negative. *)
Definition decimal (n : Z) : string := NilZero.string_of_int (Z.to_int n).

(** Printing an [int] ([str(n)], the [{n}] of an f-string) is refused with a
    [ValueError] when the numeral, sign apart, has more digits than the
    interpreter's limit, 4300 by default: a numeral has more than 4300
    digits exactly when the absolute value is at least [10 ^ 4300]. *)
Definition int_max_str_digits : Z := 4300.

Definition exceeds_max_str_digits (n : Z) : bool :=
  10 ^ int_max_str_digits <=? Z.abs n.

Definition int_to_str (n : Z) : result string :=
  if exceeds_max_str_digits n then Raise IntToStrValueError else Ok (decimal n).

(** The [{x}] of an f-string for an optional [int]. *)
Definition format_optional_int (x : option Z) : result string :=
  match x with
  | None => Ok "None"
  | Some n => int_to_str n
  end.

(** [sep.join(items)]: [None] is not iterable. *)
Definition join (sep : string) (items : option (list string)) : result string :=
  match items with
  | Some l => Ok (String.concat sep l)
  | None => Raise (TypeError StrJoin)
  end.

(** ** Methods *)

(** A method on an object of type [S]: from the object before the call to the
    outcome and the object after it. *)
Definition method (S A : Type) : Type := S -> result A * S.

Definition ret {S A : Type} (a : A) : method S A := fun self => (Ok a, self).

Definition bind {S A B : Type} (m : method S A) (k : A -> method S B) : method S B :=
  fun self =>
    match m self with
    | (Ok a, self') => k a self'
    | (Raise e, self') => (Raise e, self')
    end.

Definition raise {S A : Type} (e : exn) : method S A := fun self => (Raise e, self).

(** Reading [self]. *)
Definition get_self {S : Type} : method S S := fun self => (Ok self, self).

(** A call into the library: it does not see [self]. *)
Definition call {S A : Type} (r : result A) : method S A := fun self => (r, self).

(** [try: body  except <class>: handler]: [catches] selects the exceptions of
    the handler's class, every other exception propagates; an exception the
    handler raises gets the handled one as its context. *)
Definition try_except {S A : Type} (body : method S A)
    (catches : exn -> bool) (handler : exn -> method S A) : method S A :=
  fun self =>
    match body self with
    | (Ok a, self') => (Ok a, self')
    | (Raise e, self') =>
        if catches e then
          match handler e self' with
          | (Ok a, self'') => (Ok a, self'')
          | (Raise e', self'') => (Raise (with_context e e'), self'')
          end
        else (Raise e, self')
    end.

Declare Scope method_scope.
Delimit Scope method_scope with method.
Notation "x <- m ;; k" := (bind m (fun x => k))
  (at level 61, m at next level, right associativity) : method_scope.
Local Open Scope method_scope.

(** The value a call returns and the object it leaves. *)
Definition outcome {S A : Type} (m : method S A) (self : S) : result A := fst (m self).
Definition object_after {S A : Type} (m : method S A) (self : S) : S := snd (m self).

(** ** [datetime.datetime] *)

(** A date-time as [fromisoformat] builds it: the civil fields and the UTC
    offset in microseconds, [None] for a naive value. *)
Record datetime : Type := mk_datetime {
  year : Z;
  month : Z;
  day : Z;
  hour : Z;
  minute : Z;
  second : Z;
  microsecond : Z;
  utcoffset : option Z
}.

Definition is_leap (y : Z) : bool :=
  (y mod 4 =? 0) && (negb (y mod 100 =? 0) || (y mod 400 =? 0)).

Definition days_in_month (y m : Z) : Z :=
  if m =? 2 then (if is_leap y then 29 else 28)
  else if (m =? 4) || (m =? 6) || (m =? 9) || (m =? 11) then 30
  else 31.

Definition days_before_year (y : Z) : Z :=
  let y1 := y - 1 in
  y1 * 365 + y1 / 4 - y1 / 100 + y1 / 400.

Definition days_before_month (y m : Z) : Z :=
  nth (Z.to_nat m) [-1; 0; 31; 59; 90; 120; 151; 181; 212; 243; 273; 304; 334] 0
  + (if (2 <? m) && is_leap y then 1 else 0).

Definition toordinal (d : datetime) : Z :=
  days_before_year (year d) + days_before_month (year d) (month d) + day d.

(** Microseconds of the civil fields since the start of day 0. *)
Definition civil_microseconds (d : datetime) : Z :=
  (toordinal d * 86400 + hour d * 3600 + minute d * 60 + second d) * 1000000
  + microsecond d.

Fixpoint cmp_tuple (a b : list Z) : comparison :=
  match a, b with
  | [], [] => Eq
  | [], _ :: _ => Lt
  | _ :: _, [] => Gt
  | x :: a', y :: b' =>
      match x ?= y with
      | Eq => cmp_tuple a' b'
      | c => c
      end
  end.

Definition fields (d : datetime) : list Z :=
  [year d; month d; day d; hour d; minute d; second d; microsecond d].

Definition offset_eqb (a b : option Z) : bool :=
  match a, b with
  | None, None => true
  | Some x, Some y => x =? y
  | _, _ => false
  end.

(** [datetime._cmp]: the fields are compared as a tuple when both offsets
    agree; a naive and an aware value do not compare; two aware values with
    different offsets compare by the sign of their difference. *)
Definition datetime_cmp (a b : datetime) : result comparison :=
  if offset_eqb (utcoffset a) (utcoffset b) then Ok (cmp_tuple (fields a) (fields b))
  else
    match utcoffset a, utcoffset b with
    | Some myoff, Some otoff =>
        let diff := civil_microseconds a - civil_microseconds b + otoff - myoff in
        Ok (if diff <? 0 then Lt else if diff =? 0 then Eq else Gt)
    | _, _ => Raise (TypeError DatetimeOrder)
    end.

(** [a > b] *)
Definition datetime_gt (a b : datetime) : result bool :=
  match datetime_cmp a b with
  | Ok Gt => Ok true
  | Ok _ => Ok false
  | Raise e => Raise e
  end.

(** [a <= b] *)
Definition datetime_le (a b : datetime) : result bool :=
  match datetime_cmp a b with
  | Ok Gt => Ok false
  | Ok _ => Ok true
  | Raise e => Raise e
  end.

(** [datetime.datetime.fromisoformat(arg)] over the grammar [iso]: an argument
    that is not a string is a [TypeError], a string outside the grammar a
    [ValueError]. *)
Definition fromisoformat (iso : string -> option datetime) (arg : option string)
    : result datetime :=
  match arg with
  | None => Raise (TypeError Fromisoformat)
  | Some date_string =>
      match iso date_string with
      | Some d => Ok d
      | None => Raise (IsoformatValueError date_string)
      end
  end.

(** ** [re.compile] *)

(** What compiling a pattern ends with: a pattern object, [re.error], or
    another exception of the compiler. *)
Inductive compiled : Type :=
| Pattern
| PatternSyntaxError (msg : string)
| CompilerFailure (cls msg : string).

(** [re.compile(arg)] over the compiler [re]; an argument that is not a
    string is a [TypeError]. *)
Definition re_compile (re : string -> compiled) (arg : option string) : result unit :=
  match arg with
  | None => Raise (TypeError ReCompile)
  | Some pattern =>
      match re pattern with
      | Pattern => Ok tt
      | PatternSyntaxError msg => Raise (ReError msg)
      | CompilerFailure cls msg => Raise (LibraryError cls msg)
      end
  end.

Definition is_re_error (e : exn) : bool :=
  match e with
  | ReError _ => true
  | _ => false
  end.

(** ** [AirflowBackfillParams] *)

Module AirflowBackfillParams.

Record t : Type := mk {
  start_date : string;
  end_date : string;
  dag_name : string;
  clear : bool;
  dry_run : bool;
  task_regex : option string
}.

Definition validate_date_range (iso : string -> option datetime) : method t unit :=
  self <- get_self ;;
  start <- call (fromisoformat iso (Some (start_date self))) ;;
  end_ <- call (fromisoformat iso (Some (end_date self))) ;;
  later <- call (datetime_gt start end_) ;;
  if (later : bool) then
    raise (ValueError ("`start_date`=" ++ start_date self
                       ++ " is greater than `end_date`=" ++ end_date self)%string None)
  else ret tt.

Definition validate_regex_pattern (re : string -> compiled) : method t unit :=
  self <- get_self ;;
  if truthy (task_regex self) then
    try_except
      (call (re_compile re (task_regex self)))
      is_re_error
      (fun _ =>
         raise (from_None
                  (ValueError ("Invalid regex pattern for `task_regex`="
                               ++ str (task_regex self))%string None)))
  else ret tt.

Definition generate_backfill_command : method t (list string) :=
  self <- get_self ;;
  let cmd := ["airflow"] in
  let cmd :=
    if clear self then
      let cmd := cmd ++ ["tasks"; "clear"] in
      let cmd :=
        if dry_run self then
          let timeout_list := ["timeout"; "60"] in
          timeout_list ++ cmd
        else cmd ++ ["-y"] in
      if truthy (task_regex self) then cmd ++ ["-t"; str (task_regex self)] else cmd
    else
      let cmd := cmd ++ ["dags"; "backfill"; "--donot-pickle"] in
      let cmd := if dry_run self then cmd ++ ["--dry-run"] else cmd in
      if truthy (task_regex self) then cmd ++ ["-t"; str (task_regex self)] else cmd
  in
  let cmd := cmd ++ ["-s"; str (start_date self); "-e"; str (end_date self);
                     str (dag_name self)] in
  ret cmd.

End AirflowBackfillParams.

(** ** [BigQueryETLBackfillParams] *)

Module BigQueryETLBackfillParams.

Record t : Type := mk {
  start_date : string;
  destination_table : string;
  dataset_id : string;
  project_id : string;
  dry_run : bool;
  no_partition : bool;
  end_date : option string;
  excludes : option (list string);
  parallelism : option Z
}.

Definition validate_date_range (iso : string -> option datetime) : method t unit :=
  self <- get_self ;;
  start <- call (fromisoformat iso (Some (start_date self))) ;;
  end_ <- call (fromisoformat iso (end_date self)) ;;
  later <- call (datetime_gt start end_) ;;
  if (later : bool) then
    raise (ValueError ("`start_date`=" ++ start_date self
                       ++ " is greater than `end_date`=" ++ str (end_date self))%string None)
  else ret tt.

Definition generate_backfill_command : method t (list string) :=
  self <- get_self ;;
  let cmd := ["script/bqetl";
              "query";
              "backfill";
              (dataset_id self ++ "." ++ destination_table self)%string;
              ("--start-date=" ++ start_date self)%string] in
  let cmd := if truthy (end_date self)
             then cmd ++ [("--end-date=" ++ str (end_date self))%string] else cmd in
  cmd <- (if truthy (excludes self)
          then joined <- call (join "," (excludes self)) ;;
               ret (cmd ++ [("--exclude=" ++ joined)%string])
          else ret cmd) ;;
  let cmd := if dry_run self then cmd ++ ["--dry-run"] else cmd in
  cmd <- (if truthy (parallelism self)
          then shown <- call (format_optional_int (parallelism self)) ;;
               ret (cmd ++ [("--parallelism=" ++ shown)%string])
          else ret cmd) ;;
  let cmd := if no_partition self then cmd ++ ["--no-partition"] else cmd in
  ret cmd.

End BigQueryETLBackfillParams.

Module Airflow := AirflowBackfillParams.
Module BigQuery := BigQueryETLBackfillParams.

(** ** Instances of the library parameters *)

(** The calendar-date form [YYYY-MM-DD] of the ISO-8601 grammar: ten
    characters, ASCII digits, a year from 1, a month from 1 to 12 and a day of
    that month; the value is the naive midnight of that day. *)
Definition digit (c : ascii) : option Z :=
  let n := Z.of_nat (nat_of_ascii c) in
  if (48 <=? n) && (n <=? 57) then Some (n - 48) else None.

Fixpoint digits (acc : Z) (l : list ascii) : option Z :=
  match l with
  | [] => Some acc
  | c :: l' =>
      match digit c with
      | Some n => digits (acc * 10 + n) l'
      | None => None
      end
  end.

Definition check_date (y m d : Z) : option datetime :=
  if (1 <=? y) && (y <=? 9999) && (1 <=? m) && (m <=? 12)
     && (1 <=? d) && (d <=? days_in_month y m)
  then Some (mk_datetime y m d 0 0 0 0 None)
  else None.

Definition iso_calendar_date (date_string : string) : option datetime :=
  match list_ascii_of_string date_string with
  | [y1; y2; y3; y4; "-"%char; m1; m2; "-"%char; d1; d2] =>
      match digits 0 [y1; y2; y3; y4], digits 0 [m1; m2], digits 0 [d1; d2] with
      | Some y, Some m, Some d => check_date y m d
      | _, _, _ => None
      end
  | _ => None
  end.

(** A compiler instance for the examples: it rejects a pattern whose first
    character set is never closed and takes every other pattern to compile. *)
Fixpoint closes_set (l : list ascii) : bool :=
  match l with
  | [] => false
  | "]"%char :: _ => true
  | _ :: l' => closes_set l'
  end.

Fixpoint unterminated_set (l : list ascii) : bool :=
  match l with
  | [] => false
  | "["%char :: l' => negb (closes_set l')
  | _ :: l' => unterminated_set l'
  end.

Definition re_sample (pattern : string) : compiled :=
  if unterminated_set (list_ascii_of_string pattern)
  then PatternSyntaxError "unterminated character set"
  else Pattern.

(** ** What the renderers produce, part by part *)

(** The tokens the task filter contributes. *)
Definition filter_tokens (task_regex : option string) : list string :=
  match task_regex with
  | Some (String c s) => ["-t"; String c s]
  | _ => []
  end.

(** The tokens every orchestrator command ends with. *)
Definition date_and_name_tokens (start_date end_date dag_name : string) : list string :=
  ["-s"; start_date; "-e"; end_date; dag_name].

(** One optional flag of the warehouse command. *)
Definition flag_if (b : bool) (token : string) : list string :=
  if b then [token] else [].

(** The warehouse command as the specification words it: the end-date flag
    whenever [end_date] is present. *)
Definition warehouse_command_as_specified (p : BigQuery.t) : list string :=
  ["script/bqetl"; "query"; "backfill";
   (BigQuery.dataset_id p ++ "." ++ BigQuery.destination_table p)%string;
   ("--start-date=" ++ BigQuery.start_date p)%string]
  ++ match BigQuery.end_date p with
     | Some e => [("--end-date=" ++ e)%string]
     | None => []
     end
  ++ match BigQuery.excludes p with
     | Some (x :: l) => [("--exclude=" ++ String.concat "," (x :: l))%string]
     | _ => []
     end
  ++ flag_if (BigQuery.dry_run p) "--dry-run"
  ++ match BigQuery.parallelism p with
     | Some n => if n =? 0 then [] else [("--parallelism=" ++ decimal n)%string]
     | None => []
     end
  ++ flag_if (BigQuery.no_partition p) "--no-partition".

(** The warehouse command with the end-date flag only for a present,
    non-empty [end_date]. *)
Definition warehouse_command (p : BigQuery.t) : list string :=
  ["script/bqetl"; "query"; "backfill";
   (BigQuery.dataset_id p ++ "." ++ BigQuery.destination_table p)%string;
   ("--start-date=" ++ BigQuery.start_date p)%string]
  ++ match BigQuery.end_date p with
     | Some (String c e) => [("--end-date=" ++ String c e)%string]
     | _ => []
     end
  ++ match BigQuery.excludes p with
     | Some (x :: l) => [("--exclude=" ++ String.concat "," (x :: l))%string]
     | _ => []
     end
  ++ flag_if (BigQuery.dry_run p) "--dry-run"
  ++ match BigQuery.parallelism p with
     | Some n => if n =? 0 then [] else [("--parallelism=" ++ decimal n)%string]
     | None => []
     end
  ++ flag_if (BigQuery.no_partition p) "--no-partition".

(** Whether printing the parallelism is refused. *)
Definition too_long_to_print (parallelism : option Z) : bool :=
  match parallelism with
  | Some n => exceeds_max_str_digits n
  | None => false
  end.

(** Calling a method twice in a row on the same object. *)
Definition twice {S A : Type} (m : method S A) : method S (A * A) :=
  first <- m ;;
  second <- m ;;
  ret (first, second).

(** ** Concrete requests used below *)

(** A warehouse request whose [end_date] is the empty string. *)
Definition warehouse_empty_end_date : BigQuery.t :=
  BigQuery.mk "2023-01-01" "events" "telemetry" "moz-fx-data" false false
    (Some "") None None.

(** A warehouse request with no [end_date] and a [start_date] that is not a
    date. *)
Definition warehouse_no_end_bad_start : BigQuery.t :=
  BigQuery.mk "yesterday" "events" "telemetry" "moz-fx-data" false false
    None None None.

(** A warehouse request with no [end_date] and a well-formed [start_date]. *)
Definition warehouse_no_end_good_start : BigQuery.t :=
  BigQuery.mk "2023-01-01" "events" "telemetry" "moz-fx-data" false false
    None None None.

(** An orchestrator request whose filter asks for more repetitions than the
    regular-expression compiler counts. *)
Definition airflow_overflowing_filter : Airflow.t :=
  Airflow.mk "2023-01-01" "2023-01-02" "my_workflow" true true (Some "a{4294967296}").

(** A warehouse request whose [parallelism] has 4301 digits. *)
Definition warehouse_huge_parallelism : BigQuery.t :=
  BigQuery.mk "2023-01-01" "events" "telemetry" "moz-fx-data" false false
    (Some "2023-01-31") None (Some (10 ^ 4300)).

(** The warehouse request of scenario 4. *)
Definition warehouse_scenario_4 : BigQuery.t :=
  BigQuery.mk "2023-01-01" "events" "telemetry" "moz-fx-data" false true
    (Some "2023-01-31") (Some ["a"; "b"]) (Some 4).

(** ** Further definitions for the properties of the whole module *)

(** The filter as both methods test it: an empty one counts as none. *)
Definition effective_filter (task_regex : option string) : option string :=
  match task_regex with
  | Some (String c s) => Some (String c s)
  | _ => None
  end.

(** The optional fields of a warehouse request as the renderer tests them. *)
Definition effective_end_date (end_date : option string) : option string :=
  match end_date with
  | Some (String c s) => Some (String c s)
  | _ => None
  end.

Definition effective_excludes (excludes : option (list string)) : option (list string) :=
  match excludes with
  | Some (x :: l) => Some (x :: l)
  | _ => None
  end.

Definition effective_parallelism (parallelism : option Z) : option Z :=
  match parallelism with
  | Some n => if n =? 0 then None else Some n
  | None => None
  end.

(** A second grammar instance: the calendar date alone (naive), or followed
    by [T00:00:00+00:00] (midnight, aware, at offset zero). *)
Definition iso_date_or_utc_midnight (date_string : string) : option datetime :=
  match iso_calendar_date (substring 0 10 date_string) with
  | Some d =>
      if (String.length date_string =? 10)%nat then Some d
      else if String.eqb (substring 10 (String.length date_string) date_string)
                "T00:00:00+00:00"
           then Some (mk_datetime (year d) (month d) (day d) 0 0 0 0 (Some 0))
           else None
  | None => None
  end.

(** A second compiler instance: a repetition count beyond the compiler's
    limit ends in [OverflowError], not [re.error]. *)
Definition re_sample_overflow (pattern : string) : compiled :=
  if String.eqb pattern "a{4294967296}"
  then CompilerFailure "OverflowError" "the repetition number is too large"
  else re_sample pattern.

(** * Properties *)

Ltac run_method :=
  unfold outcome, object_after, twice,
    Airflow.generate_backfill_command, BigQuery.generate_backfill_command,
    Airflow.validate_date_range, BigQuery.validate_date_range,
    Airflow.validate_regex_pattern,
    bind, ret, raise, call, get_self, try_except;
  cbn.

(** ** Rendering the orchestrator command *)

Lemma airflow_command_shape (p : Airflow.t) :
  Airflow.generate_backfill_command p =
  (Ok ((if Airflow.clear p
        then (if Airflow.dry_run p
              then ["timeout"; "60"; "airflow"; "tasks"; "clear"]
              else ["airflow"; "tasks"; "clear"; "-y"])
        else ["airflow"; "dags"; "backfill"; "--donot-pickle"]
             ++ flag_if (Airflow.dry_run p) "--dry-run")
       ++ filter_tokens (Airflow.task_regex p)
       ++ date_and_name_tokens (Airflow.start_date p) (Airflow.end_date p)
            (Airflow.dag_name p)),
   p).
Proof.
  destruct p as [s e d c dr r].
  destruct c, dr, r as [[|ch r]|]; reflexivity.
Qed.

(** C1. With [clear] and [dry_run] both true the command is the clear command
    with the tokens "timeout", "60" put in front of all of it; for the filter
    "load_.*", the dates 2023-01-01 and 2023-01-02 and the workflow
    "my_workflow" it is exactly the token sequence of scenario 1. *)
Theorem clear_dry_run_is_wrapped_in_timeout :
  (forall s e d r,
     outcome Airflow.generate_backfill_command (Airflow.mk s e d true true r)
     = Ok (["timeout"; "60"]
           ++ (["airflow"; "tasks"; "clear"] ++ filter_tokens r
               ++ date_and_name_tokens s e d)))
  /\ outcome Airflow.generate_backfill_command
       (Airflow.mk "2023-01-01" "2023-01-02" "my_workflow" true true (Some "load_.*"))
     = Ok ["timeout"; "60"; "airflow"; "tasks"; "clear"; "-t"; "load_.*";
           "-s"; "2023-01-01"; "-e"; "2023-01-02"; "my_workflow"].
Proof.
  split.
  - intros s e d r. unfold outcome. rewrite airflow_command_shape. reflexivity.
  - reflexivity.
Qed.

(** C6. With [clear] true and [dry_run] false the command carries the
    confirmation flag "-y" right after the clear subcommand and starts with
    the executable, with no timeout wrapper; with no filter, both dates
    2023-01-01 and the workflow "w" it is exactly the token sequence of
    scenario 2. *)
Theorem clear_without_dry_run_confirms :
  (forall s e d r,
     outcome Airflow.generate_backfill_command (Airflow.mk s e d true false r)
     = Ok (["airflow"; "tasks"; "clear"] ++ ["-y"] ++ filter_tokens r
           ++ date_and_name_tokens s e d))
  /\ outcome Airflow.generate_backfill_command
       (Airflow.mk "2023-01-01" "2023-01-01" "w" true false None)
     = Ok ["airflow"; "tasks"; "clear"; "-y"; "-s"; "2023-01-01"; "-e"; "2023-01-01"; "w"].
Proof.
  split.
  - intros s e d r. unfold outcome. rewrite airflow_command_shape. reflexivity.
  - reflexivity.
Qed.

(** C7. With [clear] false the command is the backfill subcommand with the
    fixed flag "--donot-pickle", then "--dry-run" when [dry_run] is true, then
    the filter tokens when a filter is set; whatever [clear] is, the command
    ends with "-s", the start date, "-e", the end date and the workflow name;
    scenario 3 gives exactly its token sequence. *)
Theorem backfill_branch_and_common_tail :
  (forall s e d dr r,
     outcome Airflow.generate_backfill_command (Airflow.mk s e d false dr r)
     = Ok (["airflow"; "dags"; "backfill"; "--donot-pickle"]
           ++ flag_if dr "--dry-run" ++ filter_tokens r
           ++ ["-s"; s; "-e"; e; d]))
  /\ (forall s e d c dr r, exists front,
        outcome Airflow.generate_backfill_command (Airflow.mk s e d c dr r)
        = Ok (front ++ ["-s"; s; "-e"; e; d]))
  /\ outcome Airflow.generate_backfill_command
       (Airflow.mk "2023-01-01" "2023-01-05" "w" false true None)
     = Ok ["airflow"; "dags"; "backfill"; "--donot-pickle"; "--dry-run";
           "-s"; "2023-01-01"; "-e"; "2023-01-05"; "w"].
Proof.
  split; [|split].
  - intros s e d dr r. unfold outcome. rewrite airflow_command_shape.
    destruct dr; reflexivity.
  - intros s e d c dr r. unfold outcome. rewrite airflow_command_shape.
    cbn [fst Airflow.clear Airflow.dry_run Airflow.task_regex Airflow.start_date
         Airflow.end_date Airflow.dag_name].
    unfold date_and_name_tokens. rewrite app_assoc. eexists. reflexivity.
  - reflexivity.
Qed.

(** C10. An empty-string filter renders as an absent one, whatever [clear] and
    [dry_run] are: the command is the subcommand part followed at once by the
    date and name tokens, and the subcommand part holds no "-t". *)
Theorem empty_filter_renders_as_absent :
  forall s e d c dr,
    outcome Airflow.generate_backfill_command (Airflow.mk s e d c dr (Some ""))
    = outcome Airflow.generate_backfill_command (Airflow.mk s e d c dr None)
    /\ exists front,
         outcome Airflow.generate_backfill_command (Airflow.mk s e d c dr (Some ""))
         = Ok (front ++ ["-s"; s; "-e"; e; d])
         /\ ~ In "-t" front
         /\ front = (if c
                     then (if dr
                           then ["timeout"; "60"; "airflow"; "tasks"; "clear"]
                           else ["airflow"; "tasks"; "clear"; "-y"])
                     else (if dr
                           then ["airflow"; "dags"; "backfill"; "--donot-pickle"; "--dry-run"]
                           else ["airflow"; "dags"; "backfill"; "--donot-pickle"])).
Proof.
  intros s e d c dr. split.
  - destruct c, dr; reflexivity.
  - eexists. split; [|split; [|reflexivity]].
    + destruct c, dr; reflexivity.
    + destruct c, dr; cbn; intuition discriminate.
Qed.

(** ** Rendering the warehouse command *)

Lemma zero_prints : exceeds_max_str_digits 0 = false.
Proof. reflexivity. Qed.

Lemma exceeds_max_str_digits_spec (n : Z) :
  exceeds_max_str_digits n = true <-> 10 ^ 4300 <= Z.abs n.
Proof.
  unfold exceeds_max_str_digits, int_max_str_digits. apply Z.leb_le.
Qed.

(** The limit sits between the largest numeral of 4300 digits and the
    smallest of 4301, whatever the sign. *)
Lemma digit_limit_boundary :
  exceeds_max_str_digits (10 ^ 4300 - 1) = false
  /\ exceeds_max_str_digits (10 ^ 4300) = true
  /\ exceeds_max_str_digits (- 10 ^ 4300) = true.
Proof.
  assert (Hpos : 0 < 10 ^ 4300) by (apply Z.pow_pos_nonneg; lia).
  unfold exceeds_max_str_digits, int_max_str_digits.
  generalize dependent (10 ^ 4300). intros m Hpos.
  split; [|split].
  - apply Z.leb_gt. lia.
  - apply Z.leb_le. lia.
  - apply Z.leb_le. lia.
Qed.

Lemma warehouse_command_shape (p : BigQuery.t) :
  BigQuery.generate_backfill_command p =
  (if too_long_to_print (BigQuery.parallelism p)
   then Raise IntToStrValueError
   else Ok (warehouse_command p), p).
Proof.
  destruct p as [sd tbl ds pid dr np ed ex par].
  unfold warehouse_command, BigQuery.generate_backfill_command.
  unfold bind, ret, get_self, call, join.
  cbv [truthy truthy_optional truthy_int truthy_str truthy_list truthy_bool
       BigQuery.end_date BigQuery.excludes BigQuery.dry_run BigQuery.parallelism
       BigQuery.no_partition flag_if too_long_to_print format_optional_int
       int_to_str].
  destruct par as [n|].
  - destruct (n =? 0) eqn:Hn.
    + apply Z.eqb_eq in Hn. subst n. rewrite zero_prints.
      destruct ed as [[|c e]|], ex as [[|x l]|], dr, np; reflexivity.
    + destruct (exceeds_max_str_digits n);
        destruct ed as [[|c e]|], ex as [[|x l]|], dr, np; reflexivity.
  - destruct ed as [[|c e]|], ex as [[|x l]|], dr, np; reflexivity.
Qed.

Lemma warehouse_command_rendered (p : BigQuery.t) :
  too_long_to_print (BigQuery.parallelism p) = false ->
  BigQuery.generate_backfill_command p = (Ok (warehouse_command p), p).
Proof.
  intro H. rewrite warehouse_command_shape, H. reflexivity.
Qed.

(** C2, as the code has it.  The warehouse command is, in this order: the
    prefix "script/bqetl", "query", "backfill"; the dataset and the table
    joined by a period; "--start-date=" with the start date; "--end-date="
    with the end date when [end_date] is present and not the empty string;
    "--exclude=" with the excludes joined by commas in the given order when
    there is at least one; "--dry-run" when [dry_run] is true;
    "--parallelism=" with the value when it is present and not zero;
    "--no-partition" when [no_partition] is true.  This is the specified
    command whenever [end_date] is absent or non-empty, and scenario 4 gives
    exactly its token sequence.  The call returns this command for every
    request, but for a [parallelism] too long to print, where the
    conversion's [ValueError] comes instead of any command. *)
Theorem warehouse_command_in_fixed_order :
  (forall p,
     outcome BigQuery.generate_backfill_command p
     = if too_long_to_print (BigQuery.parallelism p)
       then Raise IntToStrValueError
       else Ok (warehouse_command p))
  /\ (forall sd tbl ds pid dr np ex par,
        warehouse_command (BigQuery.mk sd tbl ds pid dr np None ex par)
        = warehouse_command_as_specified (BigQuery.mk sd tbl ds pid dr np None ex par))
  /\ (forall sd tbl ds pid dr np c e ex par,
        warehouse_command (BigQuery.mk sd tbl ds pid dr np (Some (String c e)) ex par)
        = warehouse_command_as_specified
            (BigQuery.mk sd tbl ds pid dr np (Some (String c e)) ex par))
  /\ outcome BigQuery.generate_backfill_command warehouse_scenario_4
     = Ok ["script/bqetl"; "query"; "backfill"; "telemetry.events";
           "--start-date=2023-01-01"; "--end-date=2023-01-31"; "--exclude=a,b";
           "--parallelism=4"; "--no-partition"].
Proof.
  repeat split.
  intro p. unfold outcome. rewrite warehouse_command_shape.
  destruct (too_long_to_print (BigQuery.parallelism p)); reflexivity.
Qed.

(** C2, as the specification states it, fails: for an [end_date] that is
    present but empty the code renders no end-date token, where the
    specified command has "--end-date=". *)
Lemma empty_end_date_is_not_rendered :
  BigQuery.end_date warehouse_empty_end_date = Some ""
  /\ outcome BigQuery.generate_backfill_command warehouse_empty_end_date
     = Ok ["script/bqetl"; "query"; "backfill"; "telemetry.events";
           "--start-date=2023-01-01"]
  /\ warehouse_command_as_specified warehouse_empty_end_date
     = ["script/bqetl"; "query"; "backfill"; "telemetry.events";
        "--start-date=2023-01-01"; "--end-date="]
  /\ outcome BigQuery.generate_backfill_command warehouse_empty_end_date
     <> Ok (warehouse_command_as_specified warehouse_empty_end_date).
Proof.
  repeat split. discriminate.
Qed.

(** C9. Two warehouse requests that differ in [project_id] only render the
    same command. *)
Theorem project_id_is_not_rendered :
  forall sd tbl ds pid pid' dr np ed ex par,
    outcome BigQuery.generate_backfill_command
      (BigQuery.mk sd tbl ds pid dr np ed ex par)
    = outcome BigQuery.generate_backfill_command
        (BigQuery.mk sd tbl ds pid' dr np ed ex par).
Proof.
  intros. unfold outcome. rewrite !warehouse_command_shape. reflexivity.
Qed.

(** ** When rendering raises, and that it leaves the request as it is *)

Lemma twice_ok {S A : Type} (m : method S A) (p : S) (a : A) :
  m p = (Ok a, p) -> twice m p = (Ok (a, a), p).
Proof.
  intro H. unfold twice, bind, ret. rewrite H. rewrite H. reflexivity.
Qed.

Lemma twice_raise {S A : Type} (m : method S A) (p : S) (e : exn) :
  m p = (Raise e, p) -> twice m p = (Raise e, p).
Proof.
  intro H. unfold twice, bind. rewrite H. reflexivity.
Qed.

(** C8, as the code has it.  For every orchestrator request, and for every
    warehouse request whose [parallelism] is absent or prints within the
    interpreter's digit limit, [generate_backfill_command] returns a token
    sequence (it does not raise), and a second call right after the first
    returns the same sequence.  A warehouse request whose [parallelism] is
    too long to print makes the call raise the conversion's [ValueError],
    the second call as the first.  In every case every field of the request
    is left as it was. *)
Theorem rendering_raises_only_on_unprintable_parallelism :
  (forall p : Airflow.t, exists cmd,
      Airflow.generate_backfill_command p = (Ok cmd, p)
      /\ twice Airflow.generate_backfill_command p = (Ok (cmd, cmd), p))
  /\ (forall p : BigQuery.t,
        too_long_to_print (BigQuery.parallelism p) = false ->
        exists cmd,
          BigQuery.generate_backfill_command p = (Ok cmd, p)
          /\ twice BigQuery.generate_backfill_command p = (Ok (cmd, cmd), p))
  /\ (forall p : BigQuery.t,
        too_long_to_print (BigQuery.parallelism p) = true ->
        BigQuery.generate_backfill_command p = (Raise IntToStrValueError, p)
        /\ twice BigQuery.generate_backfill_command p = (Raise IntToStrValueError, p)
        /\ class_of IntToStrValueError = ValueErrorClass).
Proof.
  split; [|split].
  - intro p. eexists. split.
    + apply airflow_command_shape.
    + apply twice_ok, airflow_command_shape.
  - intros p H. eexists. split.
    + apply warehouse_command_rendered, H.
    + apply twice_ok, warehouse_command_rendered, H.
  - intros p H.
    assert (Hrun : BigQuery.generate_backfill_command p = (Raise IntToStrValueError, p))
      by (rewrite warehouse_command_shape, H; reflexivity).
    split; [exact Hrun|]. split; [|reflexivity].
    apply twice_raise, Hrun.
Qed.

Lemma rendering_raises_only_on_unprintable_parallelism_witness :
  (too_long_to_print (BigQuery.parallelism warehouse_scenario_4) = false
   /\ exists cmd,
        BigQuery.generate_backfill_command warehouse_scenario_4
        = (Ok cmd, warehouse_scenario_4)
        /\ twice BigQuery.generate_backfill_command warehouse_scenario_4
           = (Ok (cmd, cmd), warehouse_scenario_4))
  /\ (too_long_to_print (BigQuery.parallelism warehouse_huge_parallelism) = true
      /\ twice BigQuery.generate_backfill_command warehouse_huge_parallelism
         = (Raise IntToStrValueError, warehouse_huge_parallelism)).
Proof.
  assert (Hhuge : too_long_to_print (BigQuery.parallelism warehouse_huge_parallelism)
                  = true) by exact (proj1 (proj2 digit_limit_boundary)).
  split; split.
  - reflexivity.
  - apply (proj1 (proj2 rendering_raises_only_on_unprintable_parallelism)
             warehouse_scenario_4).
    reflexivity.
  - exact Hhuge.
  - apply (proj2 (proj2 rendering_raises_only_on_unprintable_parallelism)
             warehouse_huge_parallelism Hhuge).
Defined.

(** C8, as the specification states it, fails: a warehouse request whose
    [parallelism] is 10 to the power 4300, a numeral of 4301 digits, makes
    [generate_backfill_command] raise. *)
Lemma huge_parallelism_makes_rendering_raise :
  BigQuery.parallelism warehouse_huge_parallelism = Some (10 ^ 4300)
  /\ outcome BigQuery.generate_backfill_command warehouse_huge_parallelism
     = Raise IntToStrValueError
  /\ ~ (exists cmd,
          outcome BigQuery.generate_backfill_command warehouse_huge_parallelism
          = Ok cmd).
Proof.
  assert (Hrun : outcome BigQuery.generate_backfill_command warehouse_huge_parallelism
                 = Raise IntToStrValueError).
  { unfold outcome. rewrite warehouse_command_shape.
    change (too_long_to_print (BigQuery.parallelism warehouse_huge_parallelism))
      with (exceeds_max_str_digits (10 ^ 4300)).
    rewrite (proj1 (proj2 digit_limit_boundary)). reflexivity. }
  split; [reflexivity|]. split; [exact Hrun|].
  intros [cmd H]. rewrite Hrun in H. discriminate H.
Qed.

(** ** Validating the date range *)

Lemma datetime_le_not_gt (a b : datetime) :
  datetime_le a b = Ok true -> datetime_gt a b = Ok false.
Proof.
  unfold datetime_le, datetime_gt.
  destruct (datetime_cmp a b) as [[]|]; intro H; try reflexivity; discriminate.
Qed.

Lemma datetime_gt_not_le (a b : datetime) :
  datetime_gt a b = Ok true -> datetime_le a b = Ok false.
Proof.
  unfold datetime_le, datetime_gt.
  destruct (datetime_cmp a b) as [[]|]; intro H; try reflexivity; discriminate.
Qed.

(** Only a naive value against an aware one fails to compare: two naive
    values, and two aware ones, are always ordered one way or the other. *)
Lemma datetime_order_defined (a b : datetime) :
  (utcoffset a = None <-> utcoffset b = None) ->
  datetime_le a b = Ok true \/ datetime_gt a b = Ok true.
Proof.
  intros [Hab Hba]. unfold datetime_le, datetime_gt, datetime_cmp.
  destruct (utcoffset a) as [x|], (utcoffset b) as [y|]; unfold offset_eqb.
  - destruct (x =? y).
    + destruct (cmp_tuple (fields a) (fields b)); auto.
    + destruct (_ <? 0); [auto|]. destruct (_ =? 0); auto.
  - specialize (Hba eq_refl). discriminate.
  - specialize (Hab eq_refl). discriminate.
  - destruct (cmp_tuple (fields a) (fields b)); auto.
Qed.

Section DateRange.

Variable iso : string -> option datetime.

Lemma airflow_validate_date_range_parsed (p : Airflow.t) (s e : datetime) :
  iso (Airflow.start_date p) = Some s ->
  iso (Airflow.end_date p) = Some e ->
  Airflow.validate_date_range iso p =
  match datetime_gt s e with
  | Ok true =>
      (Raise (ValueError ("`start_date`=" ++ Airflow.start_date p
                          ++ " is greater than `end_date`=" ++ Airflow.end_date p)%string
                None), p)
  | Ok false => (Ok tt, p)
  | Raise x => (Raise x, p)
  end.
Proof.
  intros Hs He.
  unfold Airflow.validate_date_range, bind, get_self, call, fromisoformat.
  rewrite Hs, He. destruct (datetime_gt s e) as [[]|]; reflexivity.
Qed.

Lemma bigquery_validate_date_range_parsed (p : BigQuery.t) (end_str : string)
    (s e : datetime) :
  BigQuery.end_date p = Some end_str ->
  iso (BigQuery.start_date p) = Some s ->
  iso end_str = Some e ->
  BigQuery.validate_date_range iso p =
  match datetime_gt s e with
  | Ok true =>
      (Raise (ValueError ("`start_date`=" ++ BigQuery.start_date p
                          ++ " is greater than `end_date`=" ++ end_str)%string
                None), p)
  | Ok false => (Ok tt, p)
  | Raise x => (Raise x, p)
  end.
Proof.
  intros Hend Hs He.
  unfold BigQuery.validate_date_range, bind, get_self, call, fromisoformat.
  rewrite Hend, Hs, He. destruct (datetime_gt s e) as [[]|]; reflexivity.
Qed.

(** C3. Let both date strings parse.  When the parsed start is less than or
    equal to the parsed end (equal included), [validate_date_range] succeeds
    on the orchestrator request and on the warehouse request with that end
    date; when the parsed start is greater, both fail with the module's
    [ValueError] that names the two dates.  Neither touches the request. *)
Theorem validate_date_range_follows_the_order :
  forall (start_str end_str : string) (s e : datetime),
    iso start_str = Some s ->
    iso end_str = Some e ->
    (datetime_le s e = Ok true ->
       (forall d c dr r,
          let p := Airflow.mk start_str end_str d c dr r in
          Airflow.validate_date_range iso p = (Ok tt, p))
       /\ (forall tbl ds pid dr np ex par,
             let p := BigQuery.mk start_str tbl ds pid dr np (Some end_str) ex par in
             BigQuery.validate_date_range iso p = (Ok tt, p)))
    /\ (datetime_gt s e = Ok true ->
          let error :=
            ValueError ("`start_date`=" ++ start_str
                        ++ " is greater than `end_date`=" ++ end_str)%string None in
          class_of error = ValueErrorClass
          /\ (forall d c dr r,
                let p := Airflow.mk start_str end_str d c dr r in
                Airflow.validate_date_range iso p = (Raise error, p))
          /\ (forall tbl ds pid dr np ex par,
                let p := BigQuery.mk start_str tbl ds pid dr np (Some end_str) ex par in
                BigQuery.validate_date_range iso p = (Raise error, p))).
Proof.
  intros start_str end_str s e Hs He. split.
  - intro Hle. apply datetime_le_not_gt in Hle. split; intros; subst p.
    + rewrite (airflow_validate_date_range_parsed
                 (Airflow.mk start_str end_str d c dr r) s e Hs He), Hle.
      reflexivity.
    + rewrite (bigquery_validate_date_range_parsed
                 (BigQuery.mk start_str tbl ds pid dr np (Some end_str) ex par)
                 end_str s e eq_refl Hs He), Hle.
      reflexivity.
  - intros Hgt error. split; [reflexivity|]. split; intros; subst p.
    + rewrite (airflow_validate_date_range_parsed
                 (Airflow.mk start_str end_str d c dr r) s e Hs He), Hgt.
      reflexivity.
    + rewrite (bigquery_validate_date_range_parsed
                 (BigQuery.mk start_str tbl ds pid dr np (Some end_str) ex par)
                 end_str s e eq_refl Hs He), Hgt.
      reflexivity.
Qed.

(** C4, as the code has it.  A warehouse request with no [end_date] never
    validates, and the request is left as it was.  The start date is parsed
    first: when it parses, the failure is the [TypeError] of handing the
    missing end date to the parser; when it does not, the failure is the
    parser's [ValueError] about the start date. *)
Theorem validate_date_range_without_end_date :
  forall p : BigQuery.t,
    BigQuery.end_date p = None ->
    (exists error, BigQuery.validate_date_range iso p = (Raise error, p))
    /\ (forall s, iso (BigQuery.start_date p) = Some s ->
          BigQuery.validate_date_range iso p = (Raise (TypeError Fromisoformat), p)
          /\ class_of (TypeError Fromisoformat) = TypeErrorClass)
    /\ (iso (BigQuery.start_date p) = None ->
          BigQuery.validate_date_range iso p
          = (Raise (IsoformatValueError (BigQuery.start_date p)), p)).
Proof.
  intros p Hend.
  unfold BigQuery.validate_date_range, bind, get_self, call, fromisoformat.
  rewrite Hend.
  destruct (iso (BigQuery.start_date p)) as [s|].
  - split; [eexists; reflexivity|]. split.
    + intros s' _. split; reflexivity.
    + discriminate.
  - split; [eexists; reflexivity|]. split.
    + discriminate.
    + reflexivity.
Qed.

End DateRange.

Lemma validate_date_range_follows_the_order_witness :
  (iso_calendar_date "2023-01-01" = Some (mk_datetime 2023 1 1 0 0 0 0 None)
   /\ datetime_le (mk_datetime 2023 1 1 0 0 0 0 None)
                  (mk_datetime 2023 1 1 0 0 0 0 None) = Ok true
   /\ outcome (Airflow.validate_date_range iso_calendar_date)
        (Airflow.mk "2023-01-01" "2023-01-01" "w" true false None) = Ok tt)
  /\ (iso_calendar_date "2023-02-01" = Some (mk_datetime 2023 2 1 0 0 0 0 None)
      /\ datetime_gt (mk_datetime 2023 2 1 0 0 0 0 None)
                     (mk_datetime 2023 1 1 0 0 0 0 None) = Ok true
      /\ outcome (Airflow.validate_date_range iso_calendar_date)
           (Airflow.mk "2023-02-01" "2023-01-01" "w" true false None)
         = Raise (ValueError
                    "`start_date`=2023-02-01 is greater than `end_date`=2023-01-01"
                    None)).
Proof.
  split.
  - split; [reflexivity|]. split; [reflexivity|].
    unfold outcome.
    rewrite (proj1 (proj1 (validate_date_range_follows_the_order iso_calendar_date
                             "2023-01-01" "2023-01-01" _ _ eq_refl eq_refl)
                      eq_refl)).
    reflexivity.
  - split; [reflexivity|]. split; [reflexivity|].
    unfold outcome.
    rewrite (proj1 (proj2 (proj2 (validate_date_range_follows_the_order
                                    iso_calendar_date
                                    "2023-02-01" "2023-01-01" _ _ eq_refl eq_refl)
                             eq_refl))).
    reflexivity.
Defined.

Lemma validate_date_range_without_end_date_witness :
  BigQuery.end_date warehouse_no_end_good_start = None
  /\ BigQuery.validate_date_range iso_calendar_date warehouse_no_end_good_start
     = (Raise (TypeError Fromisoformat), warehouse_no_end_good_start).
Proof.
  split; [reflexivity|].
  apply (proj1 (proj2 (validate_date_range_without_end_date iso_calendar_date
                         warehouse_no_end_good_start eq_refl))
           (mk_datetime 2023 1 1 0 0 0 0 None) eq_refl).
Defined.

(** C4, as the specification states it, fails: with no [end_date] and a start
    date that is not a date, the error is the parser's complaint about the
    start date, not the missing-end-date error. *)
Lemma missing_end_date_is_masked_by_bad_start_date :
  BigQuery.end_date warehouse_no_end_bad_start = None
  /\ outcome (BigQuery.validate_date_range iso_calendar_date) warehouse_no_end_bad_start
     = Raise (IsoformatValueError "yesterday")
  /\ outcome (BigQuery.validate_date_range iso_calendar_date) warehouse_no_end_bad_start
     <> Raise (TypeError Fromisoformat).
Proof.
  repeat split. discriminate.
Qed.

(** ** Validating the task filter *)

Section RegexPattern.

Variable re : string -> compiled.

(** C5, as the code has it.  [validate_regex_pattern] does nothing when the
    filter is absent or empty; for a non-empty filter the compiler accepts
    it succeeds; for a non-empty filter the compiler rejects with [re.error]
    it raises a [ValueError] whose message ends with the pattern, raised
    [from None]: it has no cause and its context is not shown, while the
    [re.error] stays attached to it as that context; any other exception of
    the compiler reaches the caller as it is.  The request is left as it
    was in each case. *)
Theorem validate_regex_pattern_cases :
  forall p : Airflow.t,
    (truthy (Airflow.task_regex p) = false ->
       Airflow.validate_regex_pattern re p = (Ok tt, p))
    /\ (forall pattern,
          Airflow.task_regex p = Some pattern -> pattern <> "" ->
          re pattern = Pattern ->
          Airflow.validate_regex_pattern re p = (Ok tt, p))
    /\ (forall pattern msg,
          Airflow.task_regex p = Some pattern -> pattern <> "" ->
          re pattern = PatternSyntaxError msg ->
          let error :=
            ValueErrorFromNone
              ("Invalid regex pattern for `task_regex`=" ++ pattern)%string
              (Some (ReError msg)) in
          Airflow.validate_regex_pattern re p = (Raise error, p)
          /\ class_of error = ValueErrorClass
          /\ class_of error <> class_of (ReError msg)
          /\ suppress_context_of error = true
          /\ chained_of error = Some (ReError msg))
    /\ (forall pattern cls msg,
          Airflow.task_regex p = Some pattern -> pattern <> "" ->
          re pattern = CompilerFailure cls msg ->
          Airflow.validate_regex_pattern re p = (Raise (LibraryError cls msg), p)).
Proof.
  intro p.
  unfold Airflow.validate_regex_pattern, bind, get_self, try_except, call, re_compile,
    raise.
  split; [|split; [|split]].
  - intro H. rewrite H. reflexivity.
  - intros pattern Hp Hne Hre. rewrite Hp.
    destruct pattern as [|c pat]; [contradiction|].
    cbn. rewrite Hre. reflexivity.
  - intros pattern msg Hp Hne Hre. rewrite Hp.
    destruct pattern as [|c pat]; [contradiction|].
    cbn. rewrite Hre. cbn.
    repeat split. discriminate.
  - intros pattern cls msg Hp Hne Hre. rewrite Hp.
    destruct pattern as [|c pat]; [contradiction|].
    cbn. rewrite Hre. reflexivity.
Qed.

End RegexPattern.

Lemma validate_regex_pattern_cases_witness :
  (Airflow.validate_regex_pattern re_sample
     (Airflow.mk "2023-01-01" "2023-01-02" "w" true true None)
   = (Ok tt, Airflow.mk "2023-01-01" "2023-01-02" "w" true true None))
  /\ (re_sample "load_.*" = Pattern
      /\ Airflow.validate_regex_pattern re_sample
           (Airflow.mk "2023-01-01" "2023-01-02" "w" true true (Some "load_.*"))
         = (Ok tt, Airflow.mk "2023-01-01" "2023-01-02" "w" true true (Some "load_.*")))
  /\ (re_sample "[invalid(" = PatternSyntaxError "unterminated character set"
      /\ Airflow.validate_regex_pattern re_sample
           (Airflow.mk "2023-01-01" "2023-01-02" "w" true true (Some "[invalid("))
         = (Raise (ValueErrorFromNone
                     "Invalid regex pattern for `task_regex`=[invalid("
                     (Some (ReError "unterminated character set"))),
            Airflow.mk "2023-01-01" "2023-01-02" "w" true true (Some "[invalid(")))
  /\ (re_sample_overflow "a{4294967296}"
      = CompilerFailure "OverflowError" "the repetition number is too large"
      /\ Airflow.validate_regex_pattern re_sample_overflow airflow_overflowing_filter
         = (Raise (LibraryError "OverflowError" "the repetition number is too large"),
            airflow_overflowing_filter)).
Proof.
  split; [|split; [|split]].
  - apply (proj1 (validate_regex_pattern_cases re_sample _)). reflexivity.
  - split; [reflexivity|].
    apply (proj1 (proj2 (validate_regex_pattern_cases re_sample _)) "load_.*");
      [reflexivity | discriminate | reflexivity].
  - split; [reflexivity|].
    apply (proj1 (proj1 (proj2 (proj2 (validate_regex_pattern_cases re_sample
                                  (Airflow.mk "2023-01-01" "2023-01-02" "w" true true
                                     (Some "[invalid(")))))
                   "[invalid(" "unterminated character set"
                   eq_refl ltac:(discriminate) eq_refl)).
  - split; [reflexivity|].
    apply (proj2 (proj2 (proj2 (validate_regex_pattern_cases re_sample_overflow
                                  airflow_overflowing_filter)))
             "a{4294967296}" "OverflowError" "the repetition number is too large"
             eq_refl ltac:(discriminate) eq_refl).
Defined.

(** C5, as the specification states it, fails: on the non-empty filter
    [a{4294967296}] the compiler ends with [OverflowError], which is not
    [re.error]; [validate_regex_pattern] then neither succeeds nor raises a
    [ValueError]: the [OverflowError] itself reaches the caller. *)
Lemma overflowing_pattern_is_neither_accepted_nor_rejected :
  Airflow.task_regex airflow_overflowing_filter = Some "a{4294967296}"
  /\ re_sample_overflow "a{4294967296}"
     = CompilerFailure "OverflowError" "the repetition number is too large"
  /\ outcome (Airflow.validate_regex_pattern re_sample_overflow) airflow_overflowing_filter
     = Raise (LibraryError "OverflowError" "the repetition number is too large")
  /\ outcome (Airflow.validate_regex_pattern re_sample_overflow) airflow_overflowing_filter
     <> Ok tt
  /\ class_of (LibraryError "OverflowError" "the repetition number is too large")
     <> ValueErrorClass.
Proof.
  repeat split; discriminate.
Qed.

(** * Further properties of the module *)

(** ** What [validate_date_range] does in every case *)

Lemma datetime_not_gt_le (a b : datetime) :
  datetime_gt a b = Ok false -> datetime_le a b = Ok true.
Proof.
  unfold datetime_le, datetime_gt.
  destruct (datetime_cmp a b) as [[]|]; intro H; try reflexivity; discriminate.
Qed.

Lemma cmp_tuple_refl (l : list Z) : cmp_tuple l l = Eq.
Proof.
  induction l as [|x l IH]; [reflexivity|].
  cbn. rewrite Z.compare_refl. exact IH.
Qed.

Lemma cmp_tuple_antisym (a b : list Z) : cmp_tuple b a = CompOpp (cmp_tuple a b).
Proof.
  revert b. induction a as [|x a IH]; intros [|y b]; try reflexivity.
  cbn. rewrite (Z.compare_antisym x y).
  destruct (x ?= y); cbn; [apply IH | reflexivity | reflexivity].
Qed.

Lemma offset_eqb_sym (a b : option Z) : offset_eqb a b = offset_eqb b a.
Proof.
  destruct a as [x|], b as [y|]; cbn; try reflexivity. apply Z.eqb_sym.
Qed.

Lemma offset_eqb_refl (a : option Z) : offset_eqb a a = true.
Proof.
  destruct a as [x|]; cbn; [apply Z.eqb_refl | reflexivity].
Qed.

Lemma datetime_cmp_refl (a : datetime) : datetime_cmp a a = Ok Eq.
Proof.
  unfold datetime_cmp. rewrite offset_eqb_refl, cmp_tuple_refl. reflexivity.
Qed.

Lemma datetime_gt_swap (a b : datetime) :
  datetime_gt a b = Ok true -> datetime_gt b a = Ok false.
Proof.
  unfold datetime_gt, datetime_cmp.
  rewrite (offset_eqb_sym (utcoffset b) (utcoffset a)).
  destruct (offset_eqb (utcoffset a) (utcoffset b)).
  - rewrite (cmp_tuple_antisym (fields a) (fields b)).
    destruct (cmp_tuple (fields a) (fields b)); cbn; intro H;
      try reflexivity; discriminate.
  - destruct (utcoffset a) as [x|], (utcoffset b) as [y|]; try discriminate.
    set (ta := civil_microseconds a). set (tb := civil_microseconds b).
    destruct (Z.ltb (ta - tb + y - x) 0) eqn:Hlt; [discriminate|].
    destruct (Z.eqb (ta - tb + y - x) 0) eqn:Heq; [discriminate|].
    intros _.
    apply Z.ltb_ge in Hlt. apply Z.eqb_neq in Heq.
    assert (Hneg : Z.ltb (tb - ta + x - y) 0 = true) by (apply Z.ltb_lt; lia).
    rewrite Hneg. reflexivity.
Qed.

Lemma datetime_gt_raises (a b : datetime) (x : exn) :
  datetime_gt a b = Raise x -> x = TypeError DatetimeOrder.
Proof.
  unfold datetime_gt, datetime_cmp.
  destruct (offset_eqb (utcoffset a) (utcoffset b)).
  - destruct (cmp_tuple (fields a) (fields b)); discriminate.
  - destruct (utcoffset a) as [u|], (utcoffset b) as [v|];
      try (intro H; injection H as <-; reflexivity).
    destruct (Z.ltb _ 0); [discriminate|]. destruct (Z.eqb _ 0); discriminate.
Qed.

Section DateRangeCases.

Variable iso : string -> option datetime.

Lemma airflow_validate_date_range_run (p : Airflow.t) :
  Airflow.validate_date_range iso p =
  match iso (Airflow.start_date p) with
  | None => (Raise (IsoformatValueError (Airflow.start_date p)), p)
  | Some s =>
      match iso (Airflow.end_date p) with
      | None => (Raise (IsoformatValueError (Airflow.end_date p)), p)
      | Some e =>
          match datetime_gt s e with
          | Ok true =>
              (Raise (ValueError ("`start_date`=" ++ Airflow.start_date p
                                  ++ " is greater than `end_date`="
                                  ++ Airflow.end_date p)%string None), p)
          | Ok false => (Ok tt, p)
          | Raise x => (Raise x, p)
          end
      end
  end.
Proof.
  unfold Airflow.validate_date_range, bind, get_self, call, fromisoformat.
  destruct (iso (Airflow.start_date p)) as [s|]; [|reflexivity].
  destruct (iso (Airflow.end_date p)) as [e|]; [|reflexivity].
  destruct (datetime_gt s e) as [[]|]; reflexivity.
Qed.

Lemma bigquery_validate_date_range_run (p : BigQuery.t) :
  BigQuery.validate_date_range iso p =
  match iso (BigQuery.start_date p) with
  | None => (Raise (IsoformatValueError (BigQuery.start_date p)), p)
  | Some s =>
      match BigQuery.end_date p with
      | None => (Raise (TypeError Fromisoformat), p)
      | Some end_str =>
          match iso end_str with
          | None => (Raise (IsoformatValueError end_str), p)
          | Some e =>
              match datetime_gt s e with
              | Ok true =>
                  (Raise (ValueError ("`start_date`=" ++ BigQuery.start_date p
                                      ++ " is greater than `end_date`="
                                      ++ end_str)%string None), p)
              | Ok false => (Ok tt, p)
              | Raise x => (Raise x, p)
              end
          end
      end
  end.
Proof.
  unfold BigQuery.validate_date_range, bind, get_self, call, fromisoformat.
  destruct (iso (BigQuery.start_date p)) as [s|]; [|reflexivity].
  destruct (BigQuery.end_date p) as [end_str|]; [|reflexivity].
  destruct (iso end_str) as [e|]; [|reflexivity].
  destruct (datetime_gt s e) as [[]|]; reflexivity.
Qed.

(** X1. A request that passes the orchestrator's [validate_date_range] has
    two dates that parse, with the start not after the end. *)
Theorem airflow_validated_range_is_ordered :
  forall p : Airflow.t,
    outcome (Airflow.validate_date_range iso) p = Ok tt ->
    exists s e,
      iso (Airflow.start_date p) = Some s
      /\ iso (Airflow.end_date p) = Some e
      /\ datetime_le s e = Ok true.
Proof.
  intros p. unfold outcome. rewrite airflow_validate_date_range_run.
  destruct (iso (Airflow.start_date p)) as [s|]; [|discriminate].
  destruct (iso (Airflow.end_date p)) as [e|]; [|discriminate].
  destruct (datetime_gt s e) as [[]|] eqn:Hgt; try discriminate.
  intros _. exists s, e. repeat split. apply datetime_not_gt_le, Hgt.
Qed.

(** X2. A request that passes the warehouse's [validate_date_range] has an
    end date, both dates parse, and the start is not after the end. *)
Theorem bigquery_validated_range_is_ordered :
  forall p : BigQuery.t,
    outcome (BigQuery.validate_date_range iso) p = Ok tt ->
    exists end_str s e,
      BigQuery.end_date p = Some end_str
      /\ iso (BigQuery.start_date p) = Some s
      /\ iso end_str = Some e
      /\ datetime_le s e = Ok true.
Proof.
  intros p. unfold outcome. rewrite bigquery_validate_date_range_run.
  destruct (iso (BigQuery.start_date p)) as [s|]; [|discriminate].
  destruct (BigQuery.end_date p) as [end_str|]; [|discriminate].
  destruct (iso end_str) as [e|] eqn:He; [|discriminate].
  destruct (datetime_gt s e) as [[]|] eqn:Hgt; try discriminate.
  intros _. exists end_str, s, e. repeat split; auto using datetime_not_gt_le.
Qed.

(** X3. The dates are parsed start first: a start date that does not parse
    is the error reported, whatever the end date is; with a start date that
    parses, an end date that does not parse is the error reported.  Both are
    the parser's [ValueError], on either class. *)
Theorem unparsable_date_is_reported_start_first :
  (forall p : Airflow.t,
     (iso (Airflow.start_date p) = None ->
        Airflow.validate_date_range iso p
        = (Raise (IsoformatValueError (Airflow.start_date p)), p))
     /\ (forall s, iso (Airflow.start_date p) = Some s ->
           iso (Airflow.end_date p) = None ->
           Airflow.validate_date_range iso p
           = (Raise (IsoformatValueError (Airflow.end_date p)), p)))
  /\ (forall (p : BigQuery.t),
        (iso (BigQuery.start_date p) = None ->
           BigQuery.validate_date_range iso p
           = (Raise (IsoformatValueError (BigQuery.start_date p)), p))
        /\ (forall s end_str, iso (BigQuery.start_date p) = Some s ->
              BigQuery.end_date p = Some end_str ->
              iso end_str = None ->
              BigQuery.validate_date_range iso p
              = (Raise (IsoformatValueError end_str), p))).
Proof.
  split; intro p.
  - rewrite airflow_validate_date_range_run. split.
    + intro H. rewrite H. reflexivity.
    + intros s Hs He. rewrite Hs, He. reflexivity.
  - rewrite bigquery_validate_date_range_run. split.
    + intro H. rewrite H. reflexivity.
    + intros s end_str Hs Hend He. rewrite Hs, Hend, He. reflexivity.
Qed.

(** X4. When one date parses to a naive value and the other to an aware
    one, [validate_date_range] ends in the [TypeError] of the comparison, not
    in the module's [ValueError], in whichever order the two come. *)
Theorem naive_against_aware_is_a_type_error :
  forall (start_str end_str : string) (s e : datetime),
    iso start_str = Some s ->
    iso end_str = Some e ->
    (utcoffset s = None /\ utcoffset e <> None)
    \/ (utcoffset s <> None /\ utcoffset e = None) ->
    (forall d c dr r,
       let p := Airflow.mk start_str end_str d c dr r in
       Airflow.validate_date_range iso p = (Raise (TypeError DatetimeOrder), p))
    /\ (forall tbl ds pid dr np ex par,
          let p := BigQuery.mk start_str tbl ds pid dr np (Some end_str) ex par in
          BigQuery.validate_date_range iso p = (Raise (TypeError DatetimeOrder), p))
    /\ class_of (TypeError DatetimeOrder) = TypeErrorClass.
Proof.
  intros start_str end_str s e Hs He Hmixed.
  assert (Hgt : datetime_gt s e = Raise (TypeError DatetimeOrder)).
  { unfold datetime_gt, datetime_cmp.
    destruct Hmixed as [[H1 H2]|[H1 H2]];
      destruct (utcoffset s) as [x|], (utcoffset e) as [y|];
      try discriminate; try contradiction; reflexivity. }
  split; [|split; [|reflexivity]]; intros; subst p.
  - rewrite airflow_validate_date_range_run. cbn. rewrite Hs, He, Hgt. reflexivity.
  - rewrite bigquery_validate_date_range_run. cbn. rewrite Hs, He, Hgt. reflexivity.
Qed.

(** X5. A range whose start and end are the same string validates whenever
    that string parses, naive or aware. *)
Theorem same_start_and_end_validates :
  forall (date_str : string) (d0 : datetime),
    iso date_str = Some d0 ->
    (forall d c dr r,
       let p := Airflow.mk date_str date_str d c dr r in
       Airflow.validate_date_range iso p = (Ok tt, p))
    /\ (forall tbl ds pid dr np ex par,
          let p := BigQuery.mk date_str tbl ds pid dr np (Some date_str) ex par in
          BigQuery.validate_date_range iso p = (Ok tt, p)).
Proof.
  intros date_str d0 H0.
  assert (Hgt : datetime_gt d0 d0 = Ok false).
  { unfold datetime_gt. rewrite datetime_cmp_refl. reflexivity. }
  split; intros; subst p.
  - rewrite airflow_validate_date_range_run. cbn. rewrite H0, Hgt. reflexivity.
  - rewrite bigquery_validate_date_range_run. cbn. rewrite H0, Hgt. reflexivity.
Qed.

(** X6. A range the orchestrator's [validate_date_range] rejects with the
    module's own [ValueError] (start after end) validates once its two dates
    are exchanged. *)
Theorem rejected_range_validates_when_swapped :
  forall a b d c dr r msg chained,
    outcome (Airflow.validate_date_range iso) (Airflow.mk a b d c dr r)
    = Raise (ValueError msg chained) ->
    outcome (Airflow.validate_date_range iso) (Airflow.mk b a d c dr r) = Ok tt.
Proof.
  intros a b d c dr r msg chained. unfold outcome.
  rewrite !airflow_validate_date_range_run. cbn.
  destruct (iso a) as [s|]; [|discriminate].
  destruct (iso b) as [e|]; [|discriminate].
  destruct (datetime_gt s e) as [[]|x] eqn:Hgt; try discriminate.
  - intros _. rewrite (datetime_gt_swap s e Hgt). reflexivity.
  - apply datetime_gt_raises in Hgt. subst x. discriminate.
Qed.

(** X7. On the same two date strings the warehouse's [validate_date_range]
    ends exactly as the orchestrator's does: same success, same error, same
    message. *)
Theorem validators_agree_on_present_end_date :
  forall start_str end_str d c dr r tbl ds pid dr' np ex par,
    outcome (BigQuery.validate_date_range iso)
      (BigQuery.mk start_str tbl ds pid dr' np (Some end_str) ex par)
    = outcome (Airflow.validate_date_range iso)
        (Airflow.mk start_str end_str d c dr r).
Proof.
  intros. unfold outcome.
  rewrite airflow_validate_date_range_run, bigquery_validate_date_range_run. cbn.
  destruct (iso start_str) as [s|]; [|reflexivity].
  destruct (iso end_str) as [e|]; [|reflexivity].
  destruct (datetime_gt s e) as [[]|]; reflexivity.
Qed.

End DateRangeCases.

Lemma airflow_validated_range_is_ordered_witness :
  outcome (Airflow.validate_date_range iso_calendar_date)
    (Airflow.mk "2023-01-01" "2023-01-05" "w" false true None) = Ok tt
  /\ exists s e,
       iso_calendar_date "2023-01-01" = Some s
       /\ iso_calendar_date "2023-01-05" = Some e
       /\ datetime_le s e = Ok true.
Proof.
  split; [reflexivity|].
  apply (airflow_validated_range_is_ordered iso_calendar_date
           (Airflow.mk "2023-01-01" "2023-01-05" "w" false true None)).
  reflexivity.
Defined.

Lemma bigquery_validated_range_is_ordered_witness :
  outcome (BigQuery.validate_date_range iso_calendar_date) warehouse_scenario_4 = Ok tt
  /\ exists end_str s e,
       BigQuery.end_date warehouse_scenario_4 = Some end_str
       /\ iso_calendar_date (BigQuery.start_date warehouse_scenario_4) = Some s
       /\ iso_calendar_date end_str = Some e
       /\ datetime_le s e = Ok true.
Proof.
  split; [reflexivity|].
  apply (bigquery_validated_range_is_ordered iso_calendar_date warehouse_scenario_4).
  reflexivity.
Defined.

Lemma unparsable_date_is_reported_start_first_witness :
  (iso_calendar_date "yesterday" = None
   /\ Airflow.validate_date_range iso_calendar_date
        (Airflow.mk "yesterday" "tomorrow" "w" true false None)
      = (Raise (IsoformatValueError "yesterday"),
         Airflow.mk "yesterday" "tomorrow" "w" true false None))
  /\ (iso_calendar_date "2023-01-01" = Some (mk_datetime 2023 1 1 0 0 0 0 None)
      /\ iso_calendar_date "2023-02-30" = None
      /\ Airflow.validate_date_range iso_calendar_date
           (Airflow.mk "2023-01-01" "2023-02-30" "w" true false None)
         = (Raise (IsoformatValueError "2023-02-30"),
            Airflow.mk "2023-01-01" "2023-02-30" "w" true false None)).
Proof.
  split.
  - split; [reflexivity|].
    apply (proj1 (proj1 (unparsable_date_is_reported_start_first iso_calendar_date)
                    (Airflow.mk "yesterday" "tomorrow" "w" true false None))).
    reflexivity.
  - split; [reflexivity|]. split; [reflexivity|].
    apply (proj2 (proj1 (unparsable_date_is_reported_start_first iso_calendar_date)
                    (Airflow.mk "2023-01-01" "2023-02-30" "w" true false None))
             (mk_datetime 2023 1 1 0 0 0 0 None));
      reflexivity.
Defined.

Lemma naive_against_aware_is_a_type_error_witness :
  iso_date_or_utc_midnight "2023-01-01" = Some (mk_datetime 2023 1 1 0 0 0 0 None)
  /\ iso_date_or_utc_midnight "2023-01-02T00:00:00+00:00"
     = Some (mk_datetime 2023 1 2 0 0 0 0 (Some 0))
  /\ outcome (Airflow.validate_date_range iso_date_or_utc_midnight)
       (Airflow.mk "2023-01-01" "2023-01-02T00:00:00+00:00" "w" true false None)
     = Raise (TypeError DatetimeOrder).
Proof.
  split; [reflexivity|]. split; [reflexivity|].
  assert (Hmixed : utcoffset (mk_datetime 2023 1 1 0 0 0 0 None) = None
                   /\ utcoffset (mk_datetime 2023 1 2 0 0 0 0 (Some 0)) <> None)
    by (split; [reflexivity | discriminate]).
  unfold outcome.
  rewrite (proj1 (naive_against_aware_is_a_type_error iso_date_or_utc_midnight
                    "2023-01-01" "2023-01-02T00:00:00+00:00"
                    (mk_datetime 2023 1 1 0 0 0 0 None)
                    (mk_datetime 2023 1 2 0 0 0 0 (Some 0))
                    eq_refl eq_refl (or_introl Hmixed))).
  reflexivity.
Defined.

Lemma same_start_and_end_validates_witness :
  iso_date_or_utc_midnight "2023-01-02T00:00:00+00:00"
  = Some (mk_datetime 2023 1 2 0 0 0 0 (Some 0))
  /\ outcome (Airflow.validate_date_range iso_date_or_utc_midnight)
       (Airflow.mk "2023-01-02T00:00:00+00:00" "2023-01-02T00:00:00+00:00"
          "w" true false None)
     = Ok tt.
Proof.
  split; [reflexivity|].
  unfold outcome.
  rewrite (proj1 (same_start_and_end_validates iso_date_or_utc_midnight
                    "2023-01-02T00:00:00+00:00"
                    (mk_datetime 2023 1 2 0 0 0 0 (Some 0)) eq_refl)).
  reflexivity.
Defined.

Lemma rejected_range_validates_when_swapped_witness :
  outcome (Airflow.validate_date_range iso_calendar_date)
    (Airflow.mk "2023-02-01" "2023-01-01" "w" true false None)
  = Raise (ValueError "`start_date`=2023-02-01 is greater than `end_date`=2023-01-01"
             None)
  /\ outcome (Airflow.validate_date_range iso_calendar_date)
       (Airflow.mk "2023-01-01" "2023-02-01" "w" true false None) = Ok tt.
Proof.
  split; [reflexivity|].
  apply (rejected_range_validates_when_swapped iso_calendar_date
           "2023-02-01" "2023-01-01" "w" true false None
           "`start_date`=2023-02-01 is greater than `end_date`=2023-01-01" None).
  reflexivity.
Defined.

(** ** What [validate_regex_pattern] does in every case *)

Section RegexPatternCases.

Variable re : string -> compiled.

Lemma validate_regex_pattern_run (p : Airflow.t) :
  Airflow.validate_regex_pattern re p =
  match effective_filter (Airflow.task_regex p) with
  | None => (Ok tt, p)
  | Some pattern =>
      match re pattern with
      | Pattern => (Ok tt, p)
      | PatternSyntaxError msg =>
          (Raise (ValueErrorFromNone ("Invalid regex pattern for `task_regex`="
                                      ++ pattern)%string (Some (ReError msg))), p)
      | CompilerFailure cls msg => (Raise (LibraryError cls msg), p)
      end
  end.
Proof.
  unfold Airflow.validate_regex_pattern, bind, get_self, try_except, call, re_compile.
  destruct (Airflow.task_regex p) as [[|c pat]|]; try reflexivity.
  cbn. destruct (re (String c pat)); reflexivity.
Qed.

(** X8. A request that passes [validate_regex_pattern] carries no filter the
    compiler has not accepted: its filter is absent, empty, or compiles. *)
Theorem validated_filter_compiles :
  forall p : Airflow.t,
    outcome (Airflow.validate_regex_pattern re) p = Ok tt ->
    forall pattern,
      effective_filter (Airflow.task_regex p) = Some pattern ->
      Airflow.task_regex p = Some pattern /\ re pattern = Pattern.
Proof.
  intros p. unfold outcome. rewrite validate_regex_pattern_run.
  intros H pattern Hf. rewrite Hf in H. split.
  - destruct (Airflow.task_regex p) as [[|c pat]|]; try discriminate. exact Hf.
  - destruct (re pattern); [reflexivity | discriminate | discriminate].
Qed.

(** X9. Only [re.error] is turned into the module's [ValueError]: any other
    exception the compiler ends with on a non-empty filter reaches the caller
    as it is. *)
Theorem other_compiler_failure_propagates :
  forall (p : Airflow.t) (pattern cls msg : string),
    Airflow.task_regex p = Some pattern ->
    pattern <> "" ->
    re pattern = CompilerFailure cls msg ->
    Airflow.validate_regex_pattern re p = (Raise (LibraryError cls msg), p)
    /\ class_of (LibraryError cls msg) = OtherClass cls.
Proof.
  intros p pattern cls msg Hp Hne Hre. split; [|reflexivity].
  rewrite validate_regex_pattern_run, Hp.
  destruct pattern as [|c pat]; [contradiction|].
  cbn. rewrite Hre. reflexivity.
Qed.

End RegexPatternCases.

Lemma validated_filter_compiles_witness :
  outcome (Airflow.validate_regex_pattern re_sample)
    (Airflow.mk "2023-01-01" "2023-01-02" "my_workflow" true true (Some "load_.*"))
  = Ok tt
  /\ re_sample "load_.*" = Pattern.
Proof.
  split; [reflexivity|].
  apply (validated_filter_compiles re_sample
           (Airflow.mk "2023-01-01" "2023-01-02" "my_workflow" true true
              (Some "load_.*"))
           eq_refl "load_.*" eq_refl).
Defined.

Lemma other_compiler_failure_propagates_witness :
  re_sample_overflow "a{4294967296}"
  = CompilerFailure "OverflowError" "the repetition number is too large"
  /\ Airflow.validate_regex_pattern re_sample_overflow
       (Airflow.mk "2023-01-01" "2023-01-02" "w" true true (Some "a{4294967296}"))
     = (Raise (LibraryError "OverflowError" "the repetition number is too large"),
        Airflow.mk "2023-01-01" "2023-01-02" "w" true true (Some "a{4294967296}")).
Proof.
  split; [reflexivity|].
  apply (proj1 (other_compiler_failure_propagates re_sample_overflow
                  (Airflow.mk "2023-01-01" "2023-01-02" "w" true true
                     (Some "a{4294967296}"))
                  "a{4294967296}" "OverflowError" "the repetition number is too large"
                  eq_refl ltac:(discriminate) eq_refl)).
Defined.

(** ** What the rendered commands tell and do not tell *)

(** X10. The orchestrator command determines the request it was rendered
    from: two requests with the same command have the same dates, workflow
    name, [clear] and [dry_run], and the same filter, an empty filter
    counting as none. *)
Theorem airflow_command_determines_request :
  forall p q : Airflow.t,
    outcome Airflow.generate_backfill_command p
    = outcome Airflow.generate_backfill_command q ->
    Airflow.start_date p = Airflow.start_date q
    /\ Airflow.end_date p = Airflow.end_date q
    /\ Airflow.dag_name p = Airflow.dag_name q
    /\ Airflow.clear p = Airflow.clear q
    /\ Airflow.dry_run p = Airflow.dry_run q
    /\ effective_filter (Airflow.task_regex p) = effective_filter (Airflow.task_regex q).
Proof.
  intros [s e d c dr r] [s' e' d' c' dr' r']. unfold outcome.
  rewrite !airflow_command_shape. cbn.
  destruct c, dr, r as [[|ch r]|], c', dr', r' as [[|ch' r']|]; cbn;
    intro H; try discriminate H;
    injection H; intros; subst; try discriminate;
    repeat split; reflexivity.
Qed.

(** X11. The warehouse command depends on the optional fields only through
    what the renderer tests: an empty [end_date], an empty [excludes] and a
    zero [parallelism] each render as the absent field. *)
Theorem falsy_optionals_render_as_absent :
  forall sd tbl ds pid dr np ed ex par,
    outcome BigQuery.generate_backfill_command
      (BigQuery.mk sd tbl ds pid dr np ed ex par)
    = outcome BigQuery.generate_backfill_command
        (BigQuery.mk sd tbl ds pid dr np
           (effective_end_date ed) (effective_excludes ex) (effective_parallelism par)).
Proof.
  intros. unfold outcome. rewrite !warehouse_command_shape.
  cbn [fst BigQuery.parallelism].
  destruct par as [n|]; cbn [effective_parallelism too_long_to_print].
  - destruct (n =? 0) eqn:Hn.
    + apply Z.eqb_eq in Hn. subst n. rewrite zero_prints.
      destruct ed as [[|c e]|], ex as [[|x l]|]; reflexivity.
    + cbn [too_long_to_print]. destruct (exceeds_max_str_digits n); [reflexivity|].
      unfold warehouse_command. cbn. rewrite Hn.
      destruct ed as [[|c e]|], ex as [[|x l]|]; reflexivity.
  - destruct ed as [[|c e]|], ex as [[|x l]|]; reflexivity.
Qed.

Lemma append_nonempty_right (a b : string) : b <> "" -> (a ++ b)%string <> "".
Proof.
  intro Hb. destruct a as [|c a]; cbn; [exact Hb | discriminate].
Qed.

(** X12. No token of the warehouse command is the empty string, whatever
    the fields hold, for every request whose [parallelism] can be printed. *)
Theorem warehouse_command_has_no_empty_token :
  forall p : BigQuery.t,
    too_long_to_print (BigQuery.parallelism p) = false ->
    exists cmd,
      outcome BigQuery.generate_backfill_command p = Ok cmd
      /\ ~ In "" cmd.
Proof.
  intros p Hprints. exists (warehouse_command p). split.
  - unfold outcome. rewrite (warehouse_command_rendered p Hprints). reflexivity.
  - intro Hin. unfold warehouse_command in Hin.
    repeat (apply in_app_or in Hin; destruct Hin as [Hin|Hin]).
    + cbn in Hin.
      destruct Hin as [H|[H|[H|[H|[H|[]]]]]]; try discriminate H.
      revert H. apply append_nonempty_right. discriminate.
    + destruct (BigQuery.end_date p) as [[|c e]|]; cbn in Hin;
        try contradiction; destruct Hin as [H|[]]; discriminate H.
    + destruct (BigQuery.excludes p) as [[|x l]|]; cbn in Hin;
        try contradiction; destruct Hin as [H|[]]; discriminate H.
    + destruct (BigQuery.dry_run p); cbn in Hin;
        try contradiction; destruct Hin as [H|[]]; discriminate H.
    + destruct (BigQuery.parallelism p) as [n|]; [destruct (n =? 0)|]; cbn in Hin;
        try contradiction; destruct Hin as [H|[]]; discriminate H.
    + destruct (BigQuery.no_partition p); cbn in Hin;
        try contradiction; destruct Hin as [H|[]]; discriminate H.
Qed.

Lemma append_assoc (a b c : string) : ((a ++ b) ++ c = a ++ (b ++ c))%string.
Proof.
  induction a as [|x a IH]; cbn; [reflexivity | rewrite IH; reflexivity].
Qed.

(** X13. The renderer joins without escaping: a period may sit in the
    dataset or in the table, and a comma inside one exclude or between two,
    and the command is the same. *)
Theorem separators_are_not_escaped :
  (forall sd tbl mid ds pid dr np ed ex par,
     outcome BigQuery.generate_backfill_command
       (BigQuery.mk sd tbl (ds ++ "." ++ mid)%string pid dr np ed ex par)
     = outcome BigQuery.generate_backfill_command
         (BigQuery.mk sd (mid ++ "." ++ tbl)%string ds pid dr np ed ex par))
  /\ (forall sd tbl ds pid dr np ed x y rest par,
        outcome BigQuery.generate_backfill_command
          (BigQuery.mk sd tbl ds pid dr np ed (Some ((x ++ "," ++ y)%string :: rest)) par)
        = outcome BigQuery.generate_backfill_command
            (BigQuery.mk sd tbl ds pid dr np ed (Some (x :: y :: rest)) par)).
Proof.
  split; intros; unfold outcome; rewrite !warehouse_command_shape;
    unfold warehouse_command; cbn [fst BigQuery.start_date BigQuery.destination_table
      BigQuery.dataset_id BigQuery.end_date BigQuery.excludes BigQuery.dry_run
      BigQuery.parallelism BigQuery.no_partition].
  - rewrite (append_assoc ds ("." ++ mid) ("." ++ tbl)).
    rewrite (append_assoc "." mid ("." ++ tbl)). reflexivity.
  - assert (Hjoin : String.concat "," ((x ++ "," ++ y)%string :: rest)
                    = String.concat "," (x :: y :: rest)).
    { destruct rest as [|z rest]; cbn [String.concat]; [reflexivity|].
      rewrite (append_assoc x ("," ++ y)). rewrite (append_assoc "," y). reflexivity. }
    rewrite Hjoin. reflexivity.
Qed.

(** X14. The number of tokens: an orchestrator command has nine, one more
    with [dry_run] and two more with a non-empty filter, whatever [clear]
    is; a warehouse command, returned whenever the [parallelism] can be
    printed, has five and one more for each optional part it renders, so
    between five and ten. *)
Theorem command_lengths :
  (forall p : Airflow.t, exists cmd,
      outcome Airflow.generate_backfill_command p = Ok cmd
      /\ Z.of_nat (List.length cmd)
         = 9 + (if Airflow.dry_run p then 1 else 0)
           + (if truthy (Airflow.task_regex p) then 2 else 0))
  /\ (forall p : BigQuery.t,
        too_long_to_print (BigQuery.parallelism p) = false ->
        exists cmd,
        outcome BigQuery.generate_backfill_command p = Ok cmd
        /\ Z.of_nat (List.length cmd)
           = 5 + (if truthy (BigQuery.end_date p) then 1 else 0)
             + (if truthy (BigQuery.excludes p) then 1 else 0)
             + (if BigQuery.dry_run p then 1 else 0)
             + (if truthy (BigQuery.parallelism p) then 1 else 0)
             + (if BigQuery.no_partition p then 1 else 0)
        /\ 5 <= Z.of_nat (List.length cmd) <= 10).
Proof.
  split.
  - intros [s e d c dr r]. eexists. split.
    + unfold outcome. rewrite airflow_command_shape. reflexivity.
    + destruct c, dr, r as [[|ch r]|]; reflexivity.
  - intros [sd tbl ds pid dr np ed ex par] Hprints. eexists. split; [|split].
    + unfold outcome. rewrite (warehouse_command_rendered _ Hprints). reflexivity.
    + unfold warehouse_command. cbn.
      cbv [truthy truthy_optional truthy_int truthy_str truthy_list].
      destruct ed as [[|c e]|], ex as [[|x l]|], dr, par as [n|], np;
        try destruct (n =? 0); reflexivity.
    + unfold warehouse_command. cbn.
      destruct ed as [[|c e]|], ex as [[|x l]|], dr, par as [n|], np;
        try destruct (n =? 0); cbn; lia.
Qed.

(** X15. A warehouse request that passed [validate_date_range], under a
    grammar that takes no empty string for a date, and whose [parallelism]
    can be printed, renders exactly the command the specification words,
    its "--end-date=" token included. *)
Theorem validated_warehouse_request_renders_end_date :
  forall (iso : string -> option datetime) (p : BigQuery.t),
    iso "" = None ->
    outcome (BigQuery.validate_date_range iso) p = Ok tt ->
    too_long_to_print (BigQuery.parallelism p) = false ->
    outcome BigQuery.generate_backfill_command p
    = Ok (warehouse_command_as_specified p)
    /\ exists end_str,
         BigQuery.end_date p = Some end_str
         /\ In ("--end-date=" ++ end_str)%string (warehouse_command_as_specified p).
Proof.
  intros iso p Hempty Hok Hprints.
  unfold outcome in Hok. rewrite bigquery_validate_date_range_run in Hok.
  destruct (iso (BigQuery.start_date p)) as [s|]; [|discriminate].
  destruct (BigQuery.end_date p) as [end_str|] eqn:Hend; [|discriminate].
  destruct (iso end_str) as [e|] eqn:He; [|discriminate].
  destruct end_str as [|c end_str]; [congruence|].
  split.
  - unfold outcome. rewrite (warehouse_command_rendered p Hprints).
    unfold warehouse_command, warehouse_command_as_specified. rewrite Hend.
    reflexivity.
  - exists (String c end_str). split; [reflexivity|].
    unfold warehouse_command_as_specified. rewrite Hend.
    apply in_or_app. right. apply in_or_app. left. left. reflexivity.
Qed.

Lemma validated_warehouse_request_renders_end_date_witness :
  iso_calendar_date "" = None
  /\ outcome (BigQuery.validate_date_range iso_calendar_date) warehouse_scenario_4 = Ok tt
  /\ too_long_to_print (BigQuery.parallelism warehouse_scenario_4) = false
  /\ outcome BigQuery.generate_backfill_command warehouse_scenario_4
     = Ok (warehouse_command_as_specified warehouse_scenario_4).
Proof.
  split; [reflexivity|]. split; [reflexivity|]. split; [reflexivity|].
  apply (proj1 (validated_warehouse_request_renders_end_date iso_calendar_date
                  warehouse_scenario_4 eq_refl eq_refl eq_refl)).
Defined.

Lemma warehouse_command_has_no_empty_token_witness :
  too_long_to_print (BigQuery.parallelism warehouse_scenario_4) = false
  /\ exists cmd,
       outcome BigQuery.generate_backfill_command warehouse_scenario_4 = Ok cmd
       /\ ~ In "" cmd.
Proof.
  split; [reflexivity|].
  apply (warehouse_command_has_no_empty_token warehouse_scenario_4 eq_refl).
Defined.

Lemma command_lengths_witness :
  too_long_to_print (BigQuery.parallelism warehouse_scenario_4) = false
  /\ exists cmd,
       outcome BigQuery.generate_backfill_command warehouse_scenario_4 = Ok cmd
       /\ Z.of_nat (List.length cmd) = 9.
Proof.
  split; [reflexivity|].
  destruct (proj2 command_lengths warehouse_scenario_4 eq_refl) as (cmd & Hcmd & Hlen & _).
  exists cmd. split; [exact Hcmd | exact Hlen].
Defined.

Lemma airflow_command_determines_request_witness :
  outcome Airflow.generate_backfill_command
    (Airflow.mk "2023-01-01" "2023-01-02" "w" true false (Some ""))
  = outcome Airflow.generate_backfill_command
      (Airflow.mk "2023-01-01" "2023-01-02" "w" true false None)
  /\ effective_filter (Some "") = effective_filter None.
Proof.
  split; [reflexivity|].
  apply (airflow_command_determines_request
           (Airflow.mk "2023-01-01" "2023-01-02" "w" true false (Some ""))
           (Airflow.mk "2023-01-01" "2023-01-02" "w" true false None)
           eq_refl).
Defined.
